(** * Boeffla touchkey control: a model of drivers/leds/boeffla_touchkey_control.c

    The driver arbitrates one button-backlight LED.  Its whole state is three
    global ints and one delayed work item; its whole effect on the outside is
    a handful of calls into the LED driver and the workqueue.  The model keeps
    the globals in a record, threads it through a state monad, and records
    every outside call, in order, in a call log. *)

From Stdlib Require Import ZArith List Lia Bool.
From ExtLib Require Import Structures.Monad Structures.MonadState.
From ExtLib Require Import Data.Monads.StateMonad.
From Stdlib Require String DecimalString.
Import String.StringSyntax.
Import ListNotations.
Import MonadNotation.
Local Open Scope Z_scope.
Local Open Scope monad_scope.

(** ** C integer conversions *)

Module CInt.

(** Value of a 32-bit pattern read as [unsigned int]. *)
Definition to_uint (z : Z) : Z := z mod 2 ^ 32.

(** Value of a 32-bit pattern read as [int]. *)
Definition to_int (z : Z) : Z :=
  let u := z mod 2 ^ 32 in
  if u <? 2 ^ 31 then u else u - 2 ^ 32.

Definition INT_MIN : Z := - 2 ^ 31.
Definition INT_MAX : Z := 2 ^ 31 - 1.

(** [z] is a value an [int] object can hold. *)
Definition is_int (z : Z) : Prop := INT_MIN <= z <= INT_MAX.

(** C truth of a scalar. *)
Definition truthy (z : Z) : bool := negb (z =? 0).

End CInt.
Import CInt.

(** ** Constants of the headers *)

(** Modelled from the spec: linux/boeffla_touchkey_control.h is not among the
    sources.  The mode numbers are those of the spec's configuration surface
    (0, 1, 2) in the order of the driver's own header comment. *)
Definition MODE_TOUCHKEY_DISP : Z := 0.
Definition MODE_TOUCHKEY_ONLY : Z := 1.
Definition MODE_OFF : Z := 2.

(** Modelled from the spec: the timeout macros of the same missing header.
    The spec has 0 as the default and accepts writes within 0..30000. *)
Definition TIMEOUT_DEFAULT : Z := 0.
Definition TIMEOUT_MIN : Z := 0.
Definition TIMEOUT_MAX : Z := 30000.

(** Values of the kernel's errno and framebuffer headers. *)
Definition EPERM : Z := 1.
Definition FB_EVENT_BLANK : Z := 9.
Definition FB_BLANK_UNBLANK : Z := 0.

(** The two brightness commands the driver ever sends. *)
Inductive led_brightness : Type := LED_OFF | LED_ON.

(** A delay in timer ticks.  HZ is a build constant outside the driver, so a
    tick count is kept symbolic: the only ticks the driver ever makes are
    [msecs_to_jiffies m], the kernel's conversion called with the int [m]. *)
Inductive jiffies : Type := msecs_to_jiffies (m : Z).

(** ** Outside calls and driver state *)

Inductive call : Type :=
| SetButtonBacklight (v : led_brightness)
| CancelDelayedWork
| ScheduleDelayedWork (delay : jiffies)
| SysfsRemoveGroup
| FlushScheduledWork
| FbUnregisterClient.

(** [led_work] lists the armed deferred-off timers.  The work item's own
    pending bit is deliberately not relied on: arming while one is armed adds
    a second entry, so that "at most one" is a fact about the callers. *)
Record driver : Type := mkDriver {
  btkc_mode : Z;
  btkc_timeout : Z;
  touched : Z;
  led_work : list jiffies;
  calls : list call
}.

(** Globals as the file initialises them; nothing armed, nothing called. *)
Definition init : driver :=
  {| btkc_mode := MODE_TOUCHKEY_ONLY;
     btkc_timeout := TIMEOUT_DEFAULT;
     touched := 0;
     led_work := [];
     calls := [] |}.

Definition set_btkc_mode (v : Z) (s : driver) : driver :=
  {| btkc_mode := v; btkc_timeout := btkc_timeout s; touched := touched s;
     led_work := led_work s; calls := calls s |}.

Definition set_btkc_timeout (v : Z) (s : driver) : driver :=
  {| btkc_mode := btkc_mode s; btkc_timeout := v; touched := touched s;
     led_work := led_work s; calls := calls s |}.

Definition set_touched (v : Z) (s : driver) : driver :=
  {| btkc_mode := btkc_mode s; btkc_timeout := btkc_timeout s; touched := v;
     led_work := led_work s; calls := calls s |}.

Definition set_led_work (w : list jiffies) (s : driver) : driver :=
  {| btkc_mode := btkc_mode s; btkc_timeout := btkc_timeout s;
     touched := touched s; led_work := w; calls := calls s |}.

Definition log (c : call) (s : driver) : driver :=
  {| btkc_mode := btkc_mode s; btkc_timeout := btkc_timeout s;
     touched := touched s; led_work := led_work s;
     calls := calls s ++ [c] |}.

(** The monad of driver code. *)
Definition K : Type -> Type := state driver.

Definition update (f : driver -> driver) : K unit :=
  s <- get ;; put (f s).

(** [if (c) { body }] with no else branch. *)
Definition when (c : bool) (body : K unit) : K unit :=
  if c then body else ret tt.

(** ** The collaborators, at the driver's boundary *)

(** Modelled from the spec: the LED driver's setter is not among the sources.
    The actuator takes an on/off command, fire and forget; nothing is read
    back. *)
Definition qpnp_boeffla_set_button_backlight (v : led_brightness) : K unit :=
  update (log (SetButtonBacklight v)).

(** Modelled from the spec: the workqueue is not among the sources.  Cancel
    disarms whatever is armed; with nothing armed it changes nothing. *)
Definition cancel_delayed_work : K unit :=
  update (fun s => set_led_work [] (log CancelDelayedWork s)).

(** Modelled from the spec: arms one deferred off.  The spec's schedule_off
    is the pair the driver writes out, a cancel and then this call. *)
Definition schedule_delayed_work (delay : jiffies) : K unit :=
  update (fun s =>
            set_led_work (led_work s ++ [delay])
                         (log (ScheduleDelayedWork delay) s)).

(** Modelled from the spec: teardown plumbing of the host platform.  Flush
    waits for work already handed to the queue; between two triggers of the
    sequential model none is in flight, so only the call is recorded, as for
    the two unregistration calls. *)
Definition flush_scheduled_work : K unit := update (log FlushScheduledWork).

Definition sysfs_remove_group : K unit := update (log SysfsRemoveGroup).

Definition fb_unregister_client : K unit := update (log FbUnregisterClient).

(** ** Internal functions *)

Definition led_work_func : K unit :=
  qpnp_boeffla_set_button_backlight LED_OFF ;;
  cancel_delayed_work.

(** [struct fb_event]: only the [data] pointer is read; [None] is NULL,
    [Some b] points at the int [b]. *)
Record fb_event : Type := mkFbEvent { data : option Z }.

Definition fb_notifier_callback (event : Z) (evdata : option fb_event)
  : K Z :=
  match evdata with
  | Some ev =>
      match data ev with
      | Some blank =>
          when (event =? FB_EVENT_BLANK)
               (if blank =? FB_BLANK_UNBLANK
                then qpnp_boeffla_set_button_backlight LED_OFF ;;
                     cancel_delayed_work
                else ret tt)
      | None => ret tt
      end
  | None => ret tt
  end ;;
  ret 0.

(** ** Exported functions *)

Definition btkc_touch_start : K unit :=
  update (set_touched 1) ;;
  mode <- gets btkc_mode ;;
  when (mode =? MODE_TOUCHKEY_DISP)
       (qpnp_boeffla_set_button_backlight LED_ON ;;
        cancel_delayed_work).

Definition btkc_touch_stop : K unit :=
  update (set_touched 0) ;;
  mode <- gets btkc_mode ;;
  when (mode =? MODE_TOUCHKEY_DISP)
       (cancel_delayed_work ;;
        timeout <- gets btkc_timeout ;;
        schedule_delayed_work (msecs_to_jiffies timeout)).

Definition btkc_touch_button : K unit :=
  mode <- gets btkc_mode ;;
  timeout <- gets btkc_timeout ;;
  when ((mode =? MODE_TOUCHKEY_DISP)
        || ((mode =? MODE_TOUCHKEY_ONLY) && truthy timeout))
       (qpnp_boeffla_set_button_backlight LED_ON ;;
        cancel_delayed_work ;;
        timeout <- gets btkc_timeout ;;
        schedule_delayed_work (msecs_to_jiffies timeout)).

Definition btkc_led_set (val : Z) : K Z :=
  mode <- gets btkc_mode ;;
  timeout <- gets btkc_timeout ;;
  if negb (mode =? MODE_TOUCHKEY_ONLY)
     || ((mode =? MODE_TOUCHKEY_ONLY) && truthy timeout)
  then ret (- EPERM)
  else ret val.

(** ** sysfs interface functions *)

(** What [kstrtoint(buf, 10, &val)] leaves behind: its int return value
    ([0], or a negative errno on malformed or out-of-range text) and the int
    it stored through the pointer.  The parser itself is kernel library code;
    the store functions are modelled from its outcome on. *)
Record kstrtoint_out : Type := mkParse { kret : Z; kval : Z }.

(** The outcome of parsing the decimal text of the int [v]. *)
Definition parsed (v : Z) : kstrtoint_out := {| kret := 0; kval := v |}.

(** Both locals are [unsigned int]: the int results are read back as
    unsigned, the macro bounds are converted for the comparisons, and the
    accepted value is converted again on assignment to the int global.  The
    result type ssize_t is wider, so [return ret] yields the unsigned value. *)
Definition btkc_mode_store (buf : kstrtoint_out) (count : Z) : K Z :=
  let err := to_uint (kret buf) in
  let val := to_uint (kval buf) in
  if truthy err then ret err
  else
    when ((to_uint MODE_TOUCHKEY_DISP <=? val) && (val <=? to_uint MODE_OFF))
         (update (set_btkc_mode (to_int val)) ;;
          cancel_delayed_work ;;
          qpnp_boeffla_set_button_backlight LED_OFF) ;;
    ret count.

Definition btkc_timeout_store (buf : kstrtoint_out) (count : Z) : K Z :=
  let err := to_uint (kret buf) in
  let val := to_uint (kval buf) in
  if truthy err then ret err
  else
    when ((to_uint TIMEOUT_MIN <=? val) && (val <=? to_uint TIMEOUT_MAX))
         (update (set_btkc_timeout (to_int val)) ;;
          timeout <- gets btkc_timeout ;;
          when (timeout <=? 30)
               (update (set_btkc_timeout (to_int (timeout * 1000)))) ;;
          cancel_delayed_work ;;
          qpnp_boeffla_set_button_backlight LED_OFF) ;;
    ret count.

(** ** Driver exit *)

Definition btk_control_exit : K unit :=
  sysfs_remove_group ;;
  cancel_delayed_work ;;
  flush_scheduled_work ;;
  fb_unregister_client.

(** ** Triggers and runs *)

Inductive trigger : Type :=
| OnTouchStart
| OnTouchStop
| OnTouchButton
| OnLedSet (val : Z)
| OnFbNotify (event : Z) (evdata : option fb_event)
| OnModeStore (buf : kstrtoint_out) (count : Z)
| OnTimeoutStore (buf : kstrtoint_out) (count : Z)
| OnLedWork.

(** State after running a piece of driver code. *)
Definition after {A : Type} (c : K A) (s : driver) : driver :=
  snd (runState c s).

(** Value returned by a piece of driver code. *)
Definition result {A : Type} (c : K A) (s : driver) : A :=
  fst (runState c s).

(** Calls a piece of driver code adds to the log. *)
Definition issued {A : Type} (c : K A) (s : driver) : list call :=
  skipn (length (calls s)) (calls (after c s)).

(** One trigger.  The work function runs only for an armed timer, which is
    no longer armed once its function runs; every other trigger can arrive
    in every state. *)
Definition step (s : driver) (t : trigger) : option driver :=
  match t with
  | OnTouchStart => Some (after btkc_touch_start s)
  | OnTouchStop => Some (after btkc_touch_stop s)
  | OnTouchButton => Some (after btkc_touch_button s)
  | OnLedSet val => Some (after (btkc_led_set val) s)
  | OnFbNotify event evdata => Some (after (fb_notifier_callback event evdata) s)
  | OnModeStore buf count => Some (after (btkc_mode_store buf count) s)
  | OnTimeoutStore buf count => Some (after (btkc_timeout_store buf count) s)
  | OnLedWork =>
      match led_work s with
      | [] => None
      | _ :: rest => Some (after led_work_func (set_led_work rest s))
      end
  end.

Fixpoint run (ts : list trigger) (s : driver) : option driver :=
  match ts with
  | [] => Some s
  | t :: ts' =>
      match step s t with
      | Some s' => run ts' s'
      | None => None
      end
  end.

(** The brightness the LED driver was last told, if any. *)
Definition last_backlight (l : list call) : option led_brightness :=
  fold_left (fun acc c =>
               match c with
               | SetButtonBacklight v => Some v
               | _ => acc
               end) l None.

(** ** Vocabulary of the properties *)

(** The ROM may drive the LED itself: touchkey-only mode, no kernel timeout. *)
Definition rom_controls (s : driver) : Prop :=
  btkc_mode s = MODE_TOUCHKEY_ONLY /\ btkc_timeout s = 0.

(** The button lights the LED under kernel control. *)
Definition button_lights (s : driver) : Prop :=
  btkc_mode s = MODE_TOUCHKEY_DISP
  \/ (btkc_mode s = MODE_TOUCHKEY_ONLY /\ btkc_timeout s <> 0).

(** The notification is a blank event whose payload says "unblank". *)
Definition is_unblank (event : Z) (evdata : option fb_event) : Prop :=
  event = FB_EVENT_BLANK
  /\ exists ev, evdata = Some ev /\ data ev = Some FB_BLANK_UNBLANK.

(** The LED reset both store functions end an accepted write with. *)
Definition reset_led (s0 : driver) : driver :=
  {| btkc_mode := btkc_mode s0; btkc_timeout := btkc_timeout s0;
     touched := touched s0; led_work := [];
     calls := calls s0 ++ [CancelDelayedWork; SetButtonBacklight LED_OFF] |}.

(** What an accepted timeout write leaves in the global. *)
Definition scaled (v : Z) : Z := if v <=? 30 then v * 1000 else v.

(** Every arming call in a stretch of the log comes right after a cancel. *)
Fixpoint guarded (cancelled : bool) (l : list call) : bool :=
  match l with
  | [] => true
  | CancelDelayedWork :: l' => guarded true l'
  | ScheduleDelayedWork _ :: l' => cancelled && guarded false l'
  | _ :: l' => guarded false l'
  end.

(** At most one timer is armed. *)
Definition single_slot (s : driver) : Prop := (length (led_work s) <= 1)%nat.

(** The stored timeout is 0 or within 31..30000. *)
Definition timeout_stored (s : driver) : Prop :=
  btkc_timeout s = 0 \/ 31 <= btkc_timeout s <= 30000.

(** ** Concrete states for the instances *)

(** Touchkey-only mode with a 3000 ms kernel timeout, nothing armed. *)
Definition timed : driver :=
  after (btkc_timeout_store (parsed 3000) 5) init.

(** Touchkey-and-display mode with the default timeout 0, nothing armed. *)
Definition disp : driver :=
  after (btkc_mode_store (parsed 0) 2) init.

(** Mode "off". *)
Definition off : driver :=
  after (btkc_mode_store (parsed 2) 2) init.

(** [timed] after a button press: LED on, one timer armed. *)
Definition lit : driver := after btkc_touch_button timed.

(** ** sysfs show functions *)

(** Value of the kernel's page header for the 4K pages of this platform. *)
Definition PAGE_SIZE : Z := 4096.

(** The text [%d] prints for an int: decimal digits, a minus sign first for
    a negative one. *)
Definition fmt_d (z : Z) : String.string :=
  DecimalString.NilZero.string_of_int (Z.to_int z).

Definition newline : String.string :=
  String.String (Ascii.ascii_of_nat 10) String.EmptyString.

(** [snprintf(buf, size, ...)] once the format is expanded to [text]: the
    buffer gets at most [size - 1] characters of it, the result is the length
    of the whole text. *)
Definition snprintf (size : Z) (text : String.string) : String.string * Z :=
  (String.substring 0 (Z.to_nat (size - 1)) text,
   Z.of_nat (String.length text)).

(** Both return the buffer contents and the byte count. *)
Definition btkc_mode_show : K (String.string * Z) :=
  mode <- gets btkc_mode ;;
  ret (snprintf PAGE_SIZE
         (String.append "Mode: " (String.append (fmt_d mode) newline))).

Definition btkc_timeout_show : K (String.string * Z) :=
  timeout <- gets btkc_timeout ;;
  ret (snprintf PAGE_SIZE
         (String.append "Timeout [s]: "
            (String.append (fmt_d timeout) newline))).

(** ** Vocabulary of the further properties *)

(** A lit LED has a way to go off: a deferred off is armed, or a display
    touch is going on in touchkey-and-display mode, whose end arms one. *)
Definition lit_is_covered (s : driver) : Prop :=
  last_backlight (calls s) = Some LED_ON ->
  led_work s <> []
  \/ (touched s = 1 /\ btkc_mode s = MODE_TOUCHKEY_DISP).

(** The mode is one of the three and touched is a truth value. *)
Definition globals_ranged (s : driver) : Prop :=
  In (btkc_mode s) [MODE_TOUCHKEY_DISP; MODE_TOUCHKEY_ONLY; MODE_OFF]
  /\ (touched s = 0 \/ touched s = 1).

(** The trigger is a write to the mode attribute. *)
Definition is_mode_store (t : trigger) : bool :=
  match t with OnModeStore _ _ => true | _ => false end.

(** The trigger is a write to the timeout attribute. *)
Definition is_timeout_store (t : trigger) : bool :=
  match t with OnTimeoutStore _ _ => true | _ => false end.

(** The calls made between two states of one run. *)
Definition since (s s' : driver) : list call :=
  skipn (length (calls s)) (calls s').

(** The decimal texts of the [n] numbers from [z] on all have at most [k]
    characters. *)
Fixpoint digits_within (k : nat) (n : nat) (z : Z) : bool :=
  match n with
  | O => true
  | S n' => (String.length (fmt_d z) <=? k)%nat && digits_within k n' (z + 1)
  end.

(** * Properties *)

(** ** Sanity runs *)

Example run_touch_disp :
  option_map (fun s => (led_work s, calls s))
    (run [OnModeStore (parsed 0) 2; OnTimeoutStore (parsed 2) 2;
          OnTouchStart; OnTouchStop; OnLedWork] init)
  = Some ([], [CancelDelayedWork; SetButtonBacklight LED_OFF;
               CancelDelayedWork; SetButtonBacklight LED_OFF;
               SetButtonBacklight LED_ON; CancelDelayedWork;
               CancelDelayedWork; ScheduleDelayedWork (msecs_to_jiffies 2000);
               SetButtonBacklight LED_OFF; CancelDelayedWork]).
Proof. reflexivity. Qed.

Example led_set_default : result (btkc_led_set 255) init = 255.
Proof. reflexivity. Qed.

Example mode_store_negative :
  after (btkc_mode_store (parsed (-1)) 3) init = init.
Proof. reflexivity. Qed.

Example mode_store_parse_failure :
  runState (btkc_mode_store {| kret := -22; kval := 0 |} 4) init
  = (4294967274, init).
Proof. reflexivity. Qed.

(** ** Integer conversions *)

Lemma to_uint_small z : 0 <= z < 2 ^ 32 -> to_uint z = z.
Proof. intros H. unfold to_uint. apply Z.mod_small. exact H. Qed.

Lemma to_int_small z : 0 <= z < 2 ^ 31 -> to_int z = z.
Proof.
  intros H. unfold to_int.
  rewrite Z.mod_small by lia.
  destruct (Z.ltb_spec z (2 ^ 31)); lia.
Qed.

(** An int outside a window of small non-negative numbers stays outside it
    when read back as unsigned: negative ints become huge. *)
Lemma to_uint_outside v hi :
  is_int v -> 0 <= hi < 2 ^ 31 -> ~ 0 <= v <= hi -> ~ 0 <= to_uint v <= hi.
Proof.
  unfold is_int, INT_MIN, INT_MAX, to_uint. intros Hv Hhi Hout.
  destruct (Z.neg_nonneg_cases v) as [Hneg | Hpos].
  - replace v with (v + 2 ^ 32 - 1 * 2 ^ 32) by lia.
    rewrite Zminus_mod, Z_mod_mult, Z.sub_0_r, Z.mod_mod by lia.
    rewrite Z.mod_small by lia. lia.
  - rewrite Z.mod_small by lia. lia.
Qed.

#[global] Arguments to_uint : simpl never.
#[global] Arguments to_int : simpl never.

(** ** The call log *)

Lemma skipn_length_app {A : Type} (l r : list A) :
  skipn (length l) (l ++ r) = r.
Proof. induction l as [| a l IH]; [reflexivity | exact IH]. Qed.

Lemma issued_of_calls {A : Type} (c : K A) (s : driver) (l : list call) :
  calls (after c s) = calls s ++ l -> issued c s = l.
Proof. intros H. unfold issued. rewrite H. apply skipn_length_app. Qed.

Lemma last_backlight_app l r :
  last_backlight (l ++ r)
  = match last_backlight r with
    | Some v => Some v
    | None => last_backlight l
    end.
Proof.
  unfold last_backlight. rewrite fold_left_app.
  generalize (fold_left
                (fun acc c =>
                   match c with SetButtonBacklight v => Some v | _ => acc end)
                l None).
  induction r as [| c r IH] using rev_ind; intros o; [reflexivity |].
  rewrite !fold_left_app. cbn.
  destruct c; try apply IH; reflexivity.
Qed.

(** Unfolds driver code down to record updates. *)
Ltac exec :=
  unfold after, result, btkc_touch_start, btkc_touch_stop, btkc_touch_button,
    btkc_led_set, fb_notifier_callback, led_work_func, btk_control_exit,
    when, truthy; cbn;
  unfold set_led_work, log, set_touched, set_btkc_mode, set_btkc_timeout; cbn.

(** ** The permission hook *)

Lemma btkc_led_set_run val s :
  runState (btkc_led_set val) s
  = (if (btkc_mode s =? MODE_TOUCHKEY_ONLY) && (btkc_timeout s =? 0)
     then val else - EPERM, s).
Proof.
  exec. unfold MODE_TOUCHKEY_ONLY.
  destruct (btkc_mode s =? 1), (btkc_timeout s =? 0); reflexivity.
Qed.

(** C2: the hook hands the requested value back when the mode is
    touchkey-only and the timeout is 0, and answers -EPERM in every other
    mode and timeout combination. *)
Theorem btkc_led_set_verdict (val : Z) (s : driver) :
  (rom_controls s -> result (btkc_led_set val) s = val)
  /\ (~ rom_controls s -> result (btkc_led_set val) s = - EPERM).
Proof.
  unfold result, rom_controls. rewrite btkc_led_set_run. cbn [fst].
  destruct (Z.eqb_spec (btkc_mode s) MODE_TOUCHKEY_ONLY) as [Hm | Hm];
    destruct (Z.eqb_spec (btkc_timeout s) 0) as [Ht | Ht]; cbn;
    split; intros H; try reflexivity; tauto.
Qed.

(** C10: the hook changes no global, arms or disarms nothing and calls
    nobody; its answer is a function of the mode and the timeout alone, so it
    vetoes in touchkey-only mode with a nonzero timeout also when nothing is
    armed and no touch is going on. *)
Theorem btkc_led_set_pure (val : Z) (s : driver) :
  after (btkc_led_set val) s = s
  /\ issued (btkc_led_set val) s = []
  /\ (forall s' : driver,
         btkc_mode s' = btkc_mode s ->
         btkc_timeout s' = btkc_timeout s ->
         result (btkc_led_set val) s' = result (btkc_led_set val) s)
  /\ (btkc_mode s = MODE_TOUCHKEY_ONLY ->
      btkc_timeout s <> 0 ->
      led_work s = [] ->
      touched s = 0 ->
      result (btkc_led_set val) s = - EPERM).
Proof.
  assert (Hs : after (btkc_led_set val) s = s)
    by (unfold after; rewrite btkc_led_set_run; reflexivity).
  repeat split.
  - exact Hs.
  - apply issued_of_calls. rewrite Hs, app_nil_r. reflexivity.
  - intros s' Hm Ht. unfold result. rewrite !btkc_led_set_run, Hm, Ht.
    reflexivity.
  - intros Hm Ht _ _. unfold result. rewrite btkc_led_set_run, Hm. cbn.
    destruct (Z.eqb_spec (btkc_timeout s) 0); [contradiction | reflexivity].
Qed.

(** ** Touch events *)

(** C3: a button press switches the LED on, cancels the armed timer and arms
    an off after the stored timeout when the mode is touchkey-and-display, or
    touchkey-only with a nonzero timeout; otherwise it changes nothing and
    calls nobody. *)
Theorem btkc_touch_button_spec (s : driver) :
  let d := msecs_to_jiffies (btkc_timeout s) in
  (button_lights s ->
   issued btkc_touch_button s
   = [SetButtonBacklight LED_ON; CancelDelayedWork; ScheduleDelayedWork d]
   /\ after btkc_touch_button s
      = {| btkc_mode := btkc_mode s; btkc_timeout := btkc_timeout s;
           touched := touched s; led_work := [d];
           calls := calls s ++ [SetButtonBacklight LED_ON; CancelDelayedWork;
                                ScheduleDelayedWork d] |})
  /\ (~ button_lights s ->
      issued btkc_touch_button s = [] /\ after btkc_touch_button s = s).
Proof.
  intros d. subst d. unfold button_lights.
  unfold MODE_TOUCHKEY_DISP, MODE_TOUCHKEY_ONLY.
  split; intros H.
  - assert (Hc : (btkc_mode s =? 0)
                 || ((btkc_mode s =? 1) && negb (btkc_timeout s =? 0)) = true).
    { destruct H as [Hm | [Hm Ht]]; rewrite Hm; [reflexivity |].
      cbn. destruct (Z.eqb_spec (btkc_timeout s) 0); [contradiction |].
      reflexivity. }
    split.
    + apply issued_of_calls. exec.
      unfold MODE_TOUCHKEY_DISP, MODE_TOUCHKEY_ONLY. rewrite Hc. cbn.
      rewrite <- !app_assoc. reflexivity.
    + exec. unfold MODE_TOUCHKEY_DISP, MODE_TOUCHKEY_ONLY. rewrite Hc. cbn.
      rewrite <- !app_assoc. reflexivity.
  - assert (Hc : (btkc_mode s =? 0)
                 || ((btkc_mode s =? 1) && negb (btkc_timeout s =? 0)) = false).
    { destruct (Z.eqb_spec (btkc_mode s) 0); [tauto |].
      destruct (Z.eqb_spec (btkc_mode s) 1); [| reflexivity].
      destruct (Z.eqb_spec (btkc_timeout s) 0); [reflexivity | tauto]. }
    assert (Hs : after btkc_touch_button s = s).
    { exec. unfold MODE_TOUCHKEY_DISP, MODE_TOUCHKEY_ONLY. rewrite Hc.
      reflexivity. }
    split; [| exact Hs].
    apply issued_of_calls. rewrite Hs, app_nil_r. reflexivity.
Qed.

(** C8: the end of a display touch always clears touched; in
    touchkey-and-display mode it also cancels the armed timer and arms an off
    after the stored timeout, taken as it is, so a timeout of 0 still arms a
    timer, one of zero milliseconds; in every other mode it calls nobody. *)
Theorem btkc_touch_stop_spec (s : driver) :
  let d := msecs_to_jiffies (btkc_timeout s) in
  touched (after btkc_touch_stop s) = 0
  /\ (btkc_mode s = MODE_TOUCHKEY_DISP ->
      issued btkc_touch_stop s = [CancelDelayedWork; ScheduleDelayedWork d]
      /\ after btkc_touch_stop s
         = {| btkc_mode := btkc_mode s; btkc_timeout := btkc_timeout s;
              touched := 0; led_work := [d];
              calls := calls s ++ [CancelDelayedWork;
                                   ScheduleDelayedWork d] |})
  /\ (btkc_mode s = MODE_TOUCHKEY_DISP ->
      btkc_timeout s = 0 ->
      led_work (after btkc_touch_stop s) = [msecs_to_jiffies 0])
  /\ (btkc_mode s <> MODE_TOUCHKEY_DISP ->
      issued btkc_touch_stop s = []
      /\ after btkc_touch_stop s = set_touched 0 s).
Proof.
  intros d. subst d. unfold MODE_TOUCHKEY_DISP.
  destruct (Z.eqb_spec (btkc_mode s) 0) as [Hm | Hm].
  - assert (Hs : after btkc_touch_stop s
                 = {| btkc_mode := btkc_mode s; btkc_timeout := btkc_timeout s;
                      touched := 0;
                      led_work := [msecs_to_jiffies (btkc_timeout s)];
                      calls := calls s
                               ++ [CancelDelayedWork;
                                   ScheduleDelayedWork
                                     (msecs_to_jiffies (btkc_timeout s))] |}).
    { exec. unfold MODE_TOUCHKEY_DISP. rewrite Hm. cbn.
      rewrite <- !app_assoc. reflexivity. }
    repeat split; try (intros; contradiction).
    + rewrite Hs. reflexivity.
    + apply issued_of_calls. rewrite Hs. reflexivity.
    + exact Hs.
    + intros _ Ht. rewrite Hs, Ht. reflexivity.
  - assert (Hs : after btkc_touch_stop s = set_touched 0 s).
    { exec. unfold MODE_TOUCHKEY_DISP.
      destruct (Z.eqb_spec (btkc_mode s) 0); [contradiction | reflexivity]. }
    repeat split; try (intros; contradiction).
    + rewrite Hs. reflexivity.
    + apply issued_of_calls. rewrite Hs, app_nil_r. reflexivity.
    + exact Hs.
Qed.

(** ** Display events *)

(** C7: in every mode the unblank notification switches the LED off and
    cancels the armed timer, after which the work function has no timer to
    run for; every other notification leaves the whole state, call log
    included, as it was. *)
Theorem fb_notifier_callback_spec (event : Z) (evdata : option fb_event)
        (s : driver) :
  (is_unblank event evdata ->
   issued (fb_notifier_callback event evdata) s
   = [SetButtonBacklight LED_OFF; CancelDelayedWork]
   /\ after (fb_notifier_callback event evdata) s
      = {| btkc_mode := btkc_mode s; btkc_timeout := btkc_timeout s;
           touched := touched s; led_work := [];
           calls := calls s ++ [SetButtonBacklight LED_OFF;
                                CancelDelayedWork] |}
   /\ step (after (fb_notifier_callback event evdata) s) OnLedWork = None)
  /\ (~ is_unblank event evdata ->
      issued (fb_notifier_callback event evdata) s = []
      /\ after (fb_notifier_callback event evdata) s = s).
Proof.
  split.
  - intros [He [ev [Hev Hd]]]. subst event evdata.
    assert (Hs : after (fb_notifier_callback FB_EVENT_BLANK (Some ev)) s
                 = {| btkc_mode := btkc_mode s; btkc_timeout := btkc_timeout s;
                      touched := touched s; led_work := [];
                      calls := calls s ++ [SetButtonBacklight LED_OFF;
                                           CancelDelayedWork] |}).
    { exec. rewrite Hd. cbn. rewrite <- !app_assoc. reflexivity. }
    repeat split.
    + apply issued_of_calls. rewrite Hs. reflexivity.
    + exact Hs.
    + rewrite Hs. reflexivity.
  - intros Hn.
    assert (Hs : after (fb_notifier_callback event evdata) s = s).
    { destruct evdata as [[[blank |]] |]; try reflexivity.
      exec. destruct (Z.eqb_spec event FB_EVENT_BLANK) as [He | He];
        [| reflexivity].
      destruct (Z.eqb_spec blank FB_BLANK_UNBLANK) as [Hb | Hb];
        [| reflexivity].
      exfalso. apply Hn. split; [exact He |].
      eexists. split; [reflexivity |]. cbn. rewrite Hb. reflexivity. }
    split; [| exact Hs].
    apply issued_of_calls. rewrite Hs, app_nil_r. reflexivity.
Qed.

(** ** Driver exit *)

(** C9, as the code has it: exit removes the sysfs group, cancels the armed
    timer, flushes the queue and unregisters the display listener, in that
    order and from every state; it sends the LED driver nothing, so the LED
    keeps the brightness it was last told and the globals keep their values. *)
Theorem btk_control_exit_spec (s : driver) :
  issued btk_control_exit s
  = [SysfsRemoveGroup; CancelDelayedWork; FlushScheduledWork;
     FbUnregisterClient]
  /\ led_work (after btk_control_exit s) = []
  /\ last_backlight (calls (after btk_control_exit s))
     = last_backlight (calls s)
  /\ btkc_mode (after btk_control_exit s) = btkc_mode s
  /\ btkc_timeout (after btk_control_exit s) = btkc_timeout s
  /\ touched (after btk_control_exit s) = touched s.
Proof.
  assert (Hs : after btk_control_exit s
               = {| btkc_mode := btkc_mode s; btkc_timeout := btkc_timeout s;
                    touched := touched s; led_work := [];
                    calls := calls s
                             ++ [SysfsRemoveGroup; CancelDelayedWork;
                                 FlushScheduledWork; FbUnregisterClient] |}).
  { exec. rewrite <- !app_assoc. reflexivity. }
  repeat split; try (rewrite Hs; reflexivity).
  - apply issued_of_calls. rewrite Hs. reflexivity.
  - rewrite Hs. cbn [calls]. rewrite last_backlight_app. reflexivity.
Qed.

(** C9, as stated, fails: with a 3000 ms timeout and a button press the LED
    is on with a timer armed; exit then disarms the timer and never tells
    the LED driver "off", so the last brightness sent remains "on". *)
Lemma btk_control_exit_leaves_led_on :
  let lit := run [OnTimeoutStore (parsed 3000) 5; OnTouchButton] init in
  option_map led_work lit = Some [msecs_to_jiffies 3000]
  /\ option_map (issued btk_control_exit) lit
     = Some [SysfsRemoveGroup; CancelDelayedWork; FlushScheduledWork;
             FbUnregisterClient]
  /\ option_map (fun s => last_backlight (calls (after btk_control_exit s)))
                lit
     = Some (Some LED_ON).
Proof. cbv zeta. repeat split; vm_compute; reflexivity. Qed.

(** ** Configuration writes *)

Section Stores.

Variables (buf : kstrtoint_out) (count : Z) (s : driver).

Lemma store_window lo hi v :
  (lo <=? v) && (v <=? hi) = true <-> lo <= v <= hi.
Proof. rewrite andb_true_iff, !Z.leb_le. tauto. Qed.

Lemma btkc_mode_store_error :
  to_uint (kret buf) <> 0 ->
  runState (btkc_mode_store buf count) s = (to_uint (kret buf), s).
Proof.
  intros H. unfold btkc_mode_store, truthy.
  destruct (Z.eqb_spec (to_uint (kret buf)) 0); [contradiction |].
  reflexivity.
Qed.

Lemma btkc_mode_store_accept :
  to_uint (kret buf) = 0 ->
  0 <= to_uint (kval buf) <= 2 ->
  runState (btkc_mode_store buf count) s
  = (count, reset_led (set_btkc_mode (to_uint (kval buf)) s)).
Proof.
  intros He Hv. unfold btkc_mode_store, truthy. rewrite He.
  change (to_uint MODE_TOUCHKEY_DISP) with 0.
  change (to_uint MODE_OFF) with 2.
  rewrite (proj2 (store_window 0 2 _) Hv).
  rewrite to_int_small by lia.
  unfold reset_led. exec. rewrite <- !app_assoc. reflexivity.
Qed.

Lemma btkc_mode_store_reject :
  to_uint (kret buf) = 0 ->
  ~ 0 <= to_uint (kval buf) <= 2 ->
  runState (btkc_mode_store buf count) s = (count, s).
Proof.
  intros He Hv. unfold btkc_mode_store, truthy. rewrite He.
  change (to_uint MODE_TOUCHKEY_DISP) with 0.
  change (to_uint MODE_OFF) with 2.
  destruct ((0 <=? to_uint (kval buf)) && (to_uint (kval buf) <=? 2))
    eqn:Hw; [apply store_window in Hw; contradiction |].
  reflexivity.
Qed.

Lemma btkc_timeout_store_error :
  to_uint (kret buf) <> 0 ->
  runState (btkc_timeout_store buf count) s = (to_uint (kret buf), s).
Proof.
  intros H. unfold btkc_timeout_store, truthy.
  destruct (Z.eqb_spec (to_uint (kret buf)) 0); [contradiction |].
  reflexivity.
Qed.

Lemma btkc_timeout_store_accept :
  to_uint (kret buf) = 0 ->
  0 <= to_uint (kval buf) <= 30000 ->
  runState (btkc_timeout_store buf count) s
  = (count, reset_led (set_btkc_timeout (scaled (to_uint (kval buf))) s)).
Proof.
  intros He Hv. unfold btkc_timeout_store, truthy. rewrite He.
  change (to_uint TIMEOUT_MIN) with 0.
  change (to_uint TIMEOUT_MAX) with 30000.
  rewrite (proj2 (store_window 0 30000 _) Hv).
  rewrite to_int_small by lia.
  unfold reset_led, scaled. exec.
  destruct (Z.leb_spec (to_uint (kval buf)) 30); cbn.
  - rewrite to_int_small by lia. rewrite <- !app_assoc. reflexivity.
  - rewrite <- !app_assoc. reflexivity.
Qed.

Lemma btkc_timeout_store_reject :
  to_uint (kret buf) = 0 ->
  ~ 0 <= to_uint (kval buf) <= 30000 ->
  runState (btkc_timeout_store buf count) s = (count, s).
Proof.
  intros He Hv. unfold btkc_timeout_store, truthy. rewrite He.
  change (to_uint TIMEOUT_MIN) with 0.
  change (to_uint TIMEOUT_MAX) with 30000.
  destruct ((0 <=? to_uint (kval buf)) && (to_uint (kval buf) <=? 30000))
    eqn:Hw; [apply store_window in Hw; contradiction |].
  reflexivity.
Qed.

End Stores.

(** The three ways a write can go. *)
Lemma btkc_mode_store_cases buf count s :
  after (btkc_mode_store buf count) s = s
  \/ exists v, 0 <= v <= 2
               /\ after (btkc_mode_store buf count) s
                  = reset_led (set_btkc_mode v s).
Proof.
  unfold after.
  destruct (Z.eq_dec (to_uint (kret buf)) 0) as [He | He].
  - destruct (Z_le_dec 0 (to_uint (kval buf))) as [Hlo | Hlo].
    + destruct (Z_le_dec (to_uint (kval buf)) 2) as [Hhi | Hhi].
      * right. exists (to_uint (kval buf)). split; [lia |].
        rewrite btkc_mode_store_accept by (assumption || lia). reflexivity.
      * left. rewrite btkc_mode_store_reject by (assumption || lia).
        reflexivity.
    + left. rewrite btkc_mode_store_reject by (assumption || lia).
      reflexivity.
  - left. rewrite btkc_mode_store_error by assumption. reflexivity.
Qed.

Lemma btkc_timeout_store_cases buf count s :
  after (btkc_timeout_store buf count) s = s
  \/ exists v, 0 <= v <= 30000
               /\ after (btkc_timeout_store buf count) s
                  = reset_led (set_btkc_timeout (scaled v) s).
Proof.
  unfold after.
  destruct (Z.eq_dec (to_uint (kret buf)) 0) as [He | He].
  - destruct (Z_le_dec 0 (to_uint (kval buf))) as [Hlo | Hlo].
    + destruct (Z_le_dec (to_uint (kval buf)) 30000) as [Hhi | Hhi].
      * right. exists (to_uint (kval buf)). split; [lia |].
        rewrite btkc_timeout_store_accept by (assumption || lia).
        reflexivity.
      * left. rewrite btkc_timeout_store_reject by (assumption || lia).
        reflexivity.
    + left. rewrite btkc_timeout_store_reject by (assumption || lia).
      reflexivity.
  - left. rewrite btkc_timeout_store_error by assumption. reflexivity.
Qed.

Lemma scaled_bounds v :
  0 <= v <= 30000 -> scaled v = 0 \/ 31 <= scaled v <= 30000.
Proof. unfold scaled. destruct (Z.leb_spec v 30); lia. Qed.

(** C5: a write of v in 1..30 stores v * 1000 and a write of v in
    1000..30000 stores v, so writing v seconds and writing v * 1000
    milliseconds end in the same state with the same return value; writing 5
    and writing 5000 both store 5000. *)
Theorem btkc_timeout_store_converges (v count : Z) (s : driver) :
  (1 <= v <= 30 ->
   btkc_timeout (after (btkc_timeout_store (parsed v) count) s) = v * 1000)
  /\ (1000 <= v <= 30000 ->
      btkc_timeout (after (btkc_timeout_store (parsed v) count) s) = v)
  /\ (1 <= v <= 30 ->
      runState (btkc_timeout_store (parsed v) count) s
      = runState (btkc_timeout_store (parsed (v * 1000)) count) s)
  /\ btkc_timeout (after (btkc_timeout_store (parsed 5) count) s) = 5000
  /\ btkc_timeout (after (btkc_timeout_store (parsed 5000) count) s) = 5000.
Proof.
  assert (Hst : forall w, 0 <= w <= 30000 ->
                  runState (btkc_timeout_store (parsed w) count) s
                  = (count, reset_led (set_btkc_timeout (scaled w) s))).
  { intros w Hw.
    rewrite btkc_timeout_store_accept;
      cbn [parsed kret kval]; rewrite ?to_uint_small by lia;
      (reflexivity || lia). }
  assert (Hlow : forall w, 1 <= w <= 30 -> scaled w = w * 1000).
  { intros w Hw. unfold scaled. destruct (Z.leb_spec w 30); lia. }
  assert (Hhigh : forall w, 1000 <= w <= 30000 -> scaled w = w).
  { intros w Hw. unfold scaled. destruct (Z.leb_spec w 30); lia. }
  unfold after. split; [| split; [| split; [| split]]].
  - intros Hv. rewrite Hst by lia. cbn. apply Hlow, Hv.
  - intros Hv. rewrite Hst by lia. cbn. apply Hhigh, Hv.
  - intros Hv. rewrite !Hst by lia. rewrite Hlow, Hhigh by lia. reflexivity.
  - rewrite Hst by lia. reflexivity.
  - rewrite Hst by lia. reflexivity.
Qed.

(** C6, as the code has it: a mode write of an int outside 0, 1, 2 and a
    timeout write of an int outside 0..30000 return the byte count and leave
    every global, the armed timer and the call log untouched. *)
Theorem rejected_store_is_noop (v count : Z) (s : driver) :
  is_int v ->
  (~ In v [0; 1; 2] ->
   runState (btkc_mode_store (parsed v) count) s = (count, s)
   /\ issued (btkc_mode_store (parsed v) count) s = [])
  /\ (~ 0 <= v <= 30000 ->
      runState (btkc_timeout_store (parsed v) count) s = (count, s)
      /\ issued (btkc_timeout_store (parsed v) count) s = []).
Proof.
  intros Hint. split; intros Hout.
  - assert (Hr : runState (btkc_mode_store (parsed v) count) s = (count, s)).
    { apply btkc_mode_store_reject; [reflexivity |].
      cbn [parsed kval]. apply to_uint_outside; [exact Hint | lia |].
      cbn in Hout. lia. }
    split; [exact Hr |].
    apply issued_of_calls. unfold after. rewrite Hr, app_nil_r. reflexivity.
  - assert (Hr : runState (btkc_timeout_store (parsed v) count) s
                 = (count, s)).
    { apply btkc_timeout_store_reject; [reflexivity |].
      cbn [parsed kval]. apply to_uint_outside; [exact Hint | lia |].
      exact Hout. }
    split; [exact Hr |].
    apply issued_of_calls. unfold after. rewrite Hr, app_nil_r. reflexivity.
Qed.

(** C6, as stated, fails: 500 is none of 0, 1..30, 1000..30000, yet writing
    it replaces the timeout and resets the LED. *)
Lemma btkc_timeout_store_500_takes_effect :
  ~ (500 = 0 \/ 1 <= 500 <= 30 \/ 1000 <= 500 <= 30000)
  /\ runState (btkc_timeout_store (parsed 500) 4) init
     = (4, {| btkc_mode := 1; btkc_timeout := 500; touched := 0;
              led_work := [];
              calls := [CancelDelayedWork; SetButtonBacklight LED_OFF] |}).
Proof. split; [lia | vm_compute; reflexivity]. Qed.

(** ** Invariants of runs *)

Section Runs.

Variable P : driver -> Prop.
Hypothesis P_step : forall s t s', P s -> step s t = Some s' -> P s'.

Lemma run_invariant ts : forall s s', P s -> run ts s = Some s' -> P s'.
Proof.
  induction ts as [| t ts IH]; intros s s' Hs Hrun; cbn in Hrun.
  - injection Hrun as <-. exact Hs.
  - destruct (step s t) as [s1 |] eqn:Hstep; [| discriminate].
    apply (IH s1); [| exact Hrun]. apply (P_step s t); assumption.
Qed.

End Runs.

(** Finds the calls a step added and checks their arming discipline. *)
Ltac logged :=
  eexists; split;
  [ first [ symmetry; apply app_nil_r
          | cbn; rewrite <- ?app_assoc; reflexivity ]
  | reflexivity ].

(** What one trigger does to the timer slot and to the log: the slot ends
    empty, holding one timer, or as it was; the calls added arm only right
    after cancelling. *)
Lemma step_effect s t s' :
  step s t = Some s' ->
  (led_work s' = led_work s \/ (length (led_work s') <= 1)%nat)
  /\ exists l, calls s' = calls s ++ l /\ guarded false l = true.
Proof.
  destruct t as [| | | val | event evdata | buf count | buf count |];
    cbn [step]; intros Hstep.
  - injection Hstep as <-. exec.
    destruct (btkc_mode s =? MODE_TOUCHKEY_DISP); cbn;
      (split; [auto | logged]).
  - injection Hstep as <-. exec.
    destruct (btkc_mode s =? MODE_TOUCHKEY_DISP); cbn;
      (split; [auto | logged]).
  - injection Hstep as <-. exec.
    destruct ((btkc_mode s =? MODE_TOUCHKEY_DISP)
              || (btkc_mode s =? MODE_TOUCHKEY_ONLY)
                 && negb (btkc_timeout s =? 0)); cbn;
      (split; [auto | logged]).
  - injection Hstep as <-. unfold after. rewrite btkc_led_set_run.
    split; [auto | logged].
  - injection Hstep as <-.
    destruct evdata as [[[blank |]] |];
      try (split; [left; reflexivity | logged]).
    exec.
    destruct (event =? FB_EVENT_BLANK), (blank =? FB_BLANK_UNBLANK); cbn;
      (split; [auto | logged]).
  - injection Hstep as <-.
    destruct (btkc_mode_store_cases buf count s) as [-> | [v [_ ->]]];
      (split; [cbn; auto | logged]).
  - injection Hstep as <-.
    destruct (btkc_timeout_store_cases buf count s) as [-> | [v [_ ->]]];
      (split; [cbn; auto | logged]).
  - destruct (led_work s) as [| d rest]; [discriminate |].
    injection Hstep as <-. exec. split; [auto | logged].
Qed.

Lemma step_single_slot s t s' :
  single_slot s -> step s t = Some s' -> single_slot s'.
Proof.
  unfold single_slot. intros Hs Hstep.
  destruct (step_effect s t s' Hstep) as [[-> | Hle] _]; assumption.
Qed.

Lemma step_timeout_stored s t s' :
  timeout_stored s -> step s t = Some s' -> timeout_stored s'.
Proof.
  unfold timeout_stored. intros Hs Hstep.
  destruct t as [| | | val | event evdata | buf count | buf count |];
    cbn [step] in Hstep.
  - injection Hstep as <-. exec.
    destruct (btkc_mode s =? MODE_TOUCHKEY_DISP); exact Hs.
  - injection Hstep as <-. exec.
    destruct (btkc_mode s =? MODE_TOUCHKEY_DISP); exact Hs.
  - injection Hstep as <-. exec.
    destruct ((btkc_mode s =? MODE_TOUCHKEY_DISP)
              || (btkc_mode s =? MODE_TOUCHKEY_ONLY)
                 && negb (btkc_timeout s =? 0)); exact Hs.
  - injection Hstep as <-. unfold after. rewrite btkc_led_set_run. exact Hs.
  - injection Hstep as <-.
    destruct evdata as [[[blank |]] |]; try exact Hs.
    exec.
    destruct (event =? FB_EVENT_BLANK), (blank =? FB_BLANK_UNBLANK);
      exact Hs.
  - injection Hstep as <-.
    destruct (btkc_mode_store_cases buf count s) as [-> | [v [_ ->]]];
      exact Hs.
  - injection Hstep as <-.
    destruct (btkc_timeout_store_cases buf count s) as [-> | [v [Hv ->]]];
      [exact Hs |].
    cbn. apply scaled_bounds, Hv.
  - destruct (led_work s) as [| d rest]; [discriminate |].
    injection Hstep as <-. exact Hs.
Qed.

(** C1: in every state a sequence of triggers leads to from the initial
    state, at most one deferred-off timer is armed; and whatever trigger
    comes next, the calls it makes arm a timer only right after a cancel, so
    the state it leads to has at most one armed as well. *)
Theorem at_most_one_pending (ts : list trigger) (s : driver) :
  run ts init = Some s ->
  single_slot s
  /\ forall t s', step s t = Some s' ->
                  guarded false (skipn (length (calls s)) (calls s')) = true
                  /\ single_slot s'.
Proof.
  intros Hrun.
  assert (Hs : single_slot s).
  { apply (run_invariant single_slot step_single_slot ts init s);
      [unfold single_slot; cbn; lia | exact Hrun]. }
  split; [exact Hs |].
  intros t s' Hstep. split; [| exact (step_single_slot s t s' Hs Hstep)].
  destruct (step_effect s t s' Hstep) as [_ [l [-> Hg]]].
  rewrite skipn_length_app. exact Hg.
Qed.

(** C4, as the code has it: in every state a sequence of triggers leads to
    from the initial state, the stored timeout is 0 or within 31..30000; it
    never lies in 1..30 or above 30000. *)
Theorem btkc_timeout_bounds (ts : list trigger) (s : driver) :
  run ts init = Some s ->
  btkc_timeout s = 0 \/ 31 <= btkc_timeout s <= 30000.
Proof.
  intros Hrun.
  apply (run_invariant timeout_stored step_timeout_stored ts init s);
    [left; reflexivity | exact Hrun].
Qed.

(** C4, as stated, fails: one write of 500 from the initial state stores
    500, which is neither 0 nor within 1000..30000. *)
Lemma btkc_timeout_500_is_stored :
  option_map btkc_timeout (run [OnTimeoutStore (parsed 500) 4] init)
  = Some 500
  /\ ~ (500 = 0 \/ 1000 <= 500 <= 30000).
Proof. split; [vm_compute; reflexivity | lia]. Qed.

(** ** Concrete instances *)

Lemma at_most_one_pending_witness :
  run [OnTimeoutStore (parsed 3000) 5; OnTouchButton; OnTouchButton] init
  = Some {| btkc_mode := 1; btkc_timeout := 3000; touched := 0;
            led_work := [msecs_to_jiffies 3000];
            calls := [CancelDelayedWork; SetButtonBacklight LED_OFF;
                      SetButtonBacklight LED_ON; CancelDelayedWork;
                      ScheduleDelayedWork (msecs_to_jiffies 3000);
                      SetButtonBacklight LED_ON; CancelDelayedWork;
                      ScheduleDelayedWork (msecs_to_jiffies 3000)] |}
  /\ single_slot (after btkc_touch_button lit)
  /\ forall t s',
       step (after btkc_touch_button lit) t = Some s' ->
       guarded false
         (skipn (length (calls (after btkc_touch_button lit))) (calls s'))
       = true
       /\ single_slot s'.
Proof.
  split; [reflexivity |].
  apply (at_most_one_pending
           [OnTimeoutStore (parsed 3000) 5; OnTouchButton; OnTouchButton]).
  reflexivity.
Defined.

Lemma btkc_timeout_bounds_witness :
  run [OnTimeoutStore (parsed 7) 2; OnTouchButton] init
  = Some (after btkc_touch_button
                (after (btkc_timeout_store (parsed 7) 2) init))
  /\ (7000 = 0 \/ 31 <= 7000 <= 30000).
Proof.
  split; [reflexivity |].
  exact (btkc_timeout_bounds [OnTimeoutStore (parsed 7) 2; OnTouchButton]
                             _ eq_refl).
Defined.

Lemma rejected_store_is_noop_witness :
  is_int 40000
  /\ ~ In 40000 [0; 1; 2]
  /\ ~ 0 <= 40000 <= 30000
  /\ runState (btkc_mode_store (parsed 40000) 6) lit = (6, lit)
  /\ issued (btkc_mode_store (parsed 40000) 6) lit = []
  /\ runState (btkc_timeout_store (parsed 40000) 6) lit = (6, lit)
  /\ issued (btkc_timeout_store (parsed 40000) 6) lit = [].
Proof.
  assert (Hint : is_int 40000) by (unfold is_int, INT_MIN, INT_MAX; lia).
  assert (Hmode : ~ In 40000 [0; 1; 2]) by (cbn; lia).
  assert (Htime : ~ 0 <= 40000 <= 30000) by lia.
  destruct (rejected_store_is_noop 40000 6 lit Hint) as [Hm Ht].
  destruct (Hm Hmode) as [Hm1 Hm2].
  destruct (Ht Htime) as [Ht1 Ht2].
  exact (conj Hint (conj Hmode (conj Htime
           (conj Hm1 (conj Hm2 (conj Ht1 Ht2)))))).
Defined.

Lemma btkc_led_set_verdict_witness :
  (rom_controls init /\ result (btkc_led_set 255) init = 255)
  /\ (~ rom_controls timed /\ result (btkc_led_set 255) timed = - EPERM).
Proof.
  assert (Hrom : rom_controls init) by (split; reflexivity).
  assert (Hker : ~ rom_controls timed) by (intros [_ Ht]; discriminate Ht).
  split.
  - split; [exact Hrom |].
    exact (proj1 (btkc_led_set_verdict 255 init) Hrom).
  - split; [exact Hker |].
    exact (proj2 (btkc_led_set_verdict 255 timed) Hker).
Defined.

Lemma btkc_led_set_pure_witness :
  btkc_mode timed = MODE_TOUCHKEY_ONLY
  /\ btkc_timeout timed <> 0
  /\ led_work timed = []
  /\ touched timed = 0
  /\ result (btkc_led_set 255) timed = - EPERM
  /\ result (btkc_led_set 255) lit = result (btkc_led_set 255) timed.
Proof.
  assert (Ht : btkc_timeout timed <> 0) by (intros H; discriminate H).
  destruct (btkc_led_set_pure 255 timed) as [_ [_ [Hdep Hveto]]].
  exact (conj eq_refl (conj Ht (conj eq_refl (conj eq_refl
           (conj (Hveto eq_refl Ht eq_refl eq_refl)
                 (Hdep lit eq_refl eq_refl)))))).
Defined.

Lemma btkc_touch_button_spec_witness :
  (button_lights timed
   /\ issued btkc_touch_button timed
      = [SetButtonBacklight LED_ON; CancelDelayedWork;
         ScheduleDelayedWork (msecs_to_jiffies 3000)]
   /\ led_work (after btkc_touch_button timed) = [msecs_to_jiffies 3000])
  /\ (~ button_lights init
      /\ issued btkc_touch_button init = []
      /\ after btkc_touch_button init = init)
  /\ (~ button_lights off /\ after btkc_touch_button off = off).
Proof.
  assert (Hon : button_lights timed).
  { right. split; [reflexivity | intros H; discriminate H]. }
  assert (Hrom : ~ button_lights init).
  { intros [H | [_ H]]; [discriminate H | apply H; reflexivity]. }
  assert (Hoff : ~ button_lights off).
  { intros [H | [H _]]; discriminate H. }
  split; [| split].
  - destruct (proj1 (btkc_touch_button_spec timed) Hon) as [Hi Ha].
    split; [exact Hon |]. split; [exact Hi |].
    rewrite Ha. reflexivity.
  - destruct (proj2 (btkc_touch_button_spec init) Hrom) as [Hi Ha].
    exact (conj Hrom (conj Hi Ha)).
  - destruct (proj2 (btkc_touch_button_spec off) Hoff) as [_ Ha].
    exact (conj Hoff Ha).
Defined.

Lemma btkc_touch_stop_spec_witness :
  (btkc_mode disp = MODE_TOUCHKEY_DISP
   /\ btkc_timeout disp = 0
   /\ issued btkc_touch_stop disp
      = [CancelDelayedWork; ScheduleDelayedWork (msecs_to_jiffies 0)]
   /\ led_work (after btkc_touch_stop disp) = [msecs_to_jiffies 0])
  /\ (btkc_mode lit <> MODE_TOUCHKEY_DISP
      /\ issued btkc_touch_stop lit = []
      /\ after btkc_touch_stop lit = set_touched 0 lit).
Proof.
  assert (Hlit : btkc_mode lit <> MODE_TOUCHKEY_DISP)
    by (intros H; discriminate H).
  destruct (btkc_touch_stop_spec disp) as [_ [Hd [Hz _]]].
  destruct (btkc_touch_stop_spec lit) as [_ [_ [_ Ho]]].
  split.
  - exact (conj eq_refl (conj eq_refl
             (conj (proj1 (Hd eq_refl)) (Hz eq_refl eq_refl)))).
  - exact (conj Hlit (Ho Hlit)).
Defined.

Lemma fb_notifier_callback_spec_witness :
  let unblank := Some {| data := Some FB_BLANK_UNBLANK |} in
  let powerdown := Some {| data := Some 4 |} in
  (is_unblank FB_EVENT_BLANK unblank
   /\ led_work lit = [msecs_to_jiffies 3000]
   /\ issued (fb_notifier_callback FB_EVENT_BLANK unblank) lit
      = [SetButtonBacklight LED_OFF; CancelDelayedWork]
   /\ step (after (fb_notifier_callback FB_EVENT_BLANK unblank) lit)
           OnLedWork = None)
  /\ (~ is_unblank FB_EVENT_BLANK powerdown
      /\ after (fb_notifier_callback FB_EVENT_BLANK powerdown) lit = lit).
Proof.
  intros unblank powerdown.
  assert (Hu : is_unblank FB_EVENT_BLANK unblank).
  { split; [reflexivity |]. eexists. split; reflexivity. }
  assert (Hp : ~ is_unblank FB_EVENT_BLANK powerdown).
  { intros [_ [ev [Hev Hd]]]. injection Hev as <-. discriminate Hd. }
  destruct (proj1 (fb_notifier_callback_spec FB_EVENT_BLANK unblank lit) Hu)
    as [Hi [_ Hw]].
  destruct (proj2 (fb_notifier_callback_spec FB_EVENT_BLANK powerdown lit) Hp)
    as [_ Ha].
  exact (conj (conj Hu (conj eq_refl (conj Hi Hw))) (conj Hp Ha)).
Defined.

Lemma btkc_timeout_store_converges_witness :
  1 <= 7 <= 30
  /\ 1000 <= 7000 <= 30000
  /\ btkc_timeout (after (btkc_timeout_store (parsed 7) 2) init) = 7000
  /\ btkc_timeout (after (btkc_timeout_store (parsed 7000) 5) init) = 7000
  /\ runState (btkc_timeout_store (parsed 7) 2) lit
     = runState (btkc_timeout_store (parsed 7000) 2) lit.
Proof.
  assert (Hs : 1 <= 7 <= 30) by lia.
  assert (Hm : 1000 <= 7000 <= 30000) by lia.
  destruct (btkc_timeout_store_converges 7 2 init) as [Hlow _].
  destruct (btkc_timeout_store_converges 7000 5 init) as [_ [Hhigh _]].
  destruct (btkc_timeout_store_converges 7 2 lit) as [_ [_ [Hconv _]]].
  exact (conj Hs (conj Hm (conj (Hlow Hs) (conj (Hhigh Hm) (Hconv Hs))))).
Defined.

(** * Further properties of the driver *)

(** ** Touch start and timer expiry *)

(** X1: the start of a display touch always sets touched; in
    touchkey-and-display mode it switches the LED on and cancels the armed
    timer, arming none, so the LED stays on while the touch lasts; in every
    other mode it calls nobody and leaves an armed timer armed. *)
Theorem btkc_touch_start_spec (s : driver) :
  touched (after btkc_touch_start s) = 1
  /\ (btkc_mode s = MODE_TOUCHKEY_DISP ->
      issued btkc_touch_start s = [SetButtonBacklight LED_ON; CancelDelayedWork]
      /\ after btkc_touch_start s
         = {| btkc_mode := btkc_mode s; btkc_timeout := btkc_timeout s;
              touched := 1; led_work := [];
              calls := calls s ++ [SetButtonBacklight LED_ON;
                                   CancelDelayedWork] |})
  /\ (btkc_mode s <> MODE_TOUCHKEY_DISP ->
      issued btkc_touch_start s = []
      /\ after btkc_touch_start s = set_touched 1 s).
Proof.
  destruct (Z.eqb_spec (btkc_mode s) MODE_TOUCHKEY_DISP) as [Hm | Hm].
  - assert (Hs : after btkc_touch_start s
                 = {| btkc_mode := btkc_mode s; btkc_timeout := btkc_timeout s;
                      touched := 1; led_work := [];
                      calls := calls s ++ [SetButtonBacklight LED_ON;
                                           CancelDelayedWork] |}).
    { exec. rewrite Hm. cbn. rewrite <- !app_assoc. reflexivity. }
    split; [rewrite Hs; reflexivity |].
    split; [| intros Hn; contradiction].
    intros _. split; [| exact Hs].
    apply issued_of_calls. rewrite Hs. reflexivity.
  - assert (Hs : after btkc_touch_start s = set_touched 1 s).
    { exec. destruct (Z.eqb_spec (btkc_mode s) MODE_TOUCHKEY_DISP);
        [contradiction | reflexivity]. }
    split; [rewrite Hs; reflexivity |].
    split; [intros Hn; contradiction |].
    intros _. split; [| exact Hs].
    apply issued_of_calls. rewrite Hs, app_nil_r. reflexivity.
Qed.

(** X2: when the one armed timer expires, the work function switches the LED
    off, the slot is empty afterwards, and the work function cannot run a
    second time until something arms a timer again. *)
Theorem led_work_expiry (s : driver) (d : jiffies) :
  led_work s = [d] ->
  exists s',
    step s OnLedWork = Some s'
    /\ since s s' = [SetButtonBacklight LED_OFF; CancelDelayedWork]
    /\ led_work s' = []
    /\ last_backlight (calls s') = Some LED_OFF
    /\ step s' OnLedWork = None
    /\ btkc_mode s' = btkc_mode s
    /\ btkc_timeout s' = btkc_timeout s
    /\ touched s' = touched s.
Proof.
  intros Hw. eexists. cbn [step]. rewrite Hw.
  split; [reflexivity |]. exec.
  repeat split.
  - unfold since. cbn. rewrite <- app_assoc. apply skipn_length_app.
  - rewrite <- app_assoc.
    change (last_backlight
              (calls s ++ [SetButtonBacklight LED_OFF; CancelDelayedWork])
            = Some LED_OFF).
    rewrite last_backlight_app. reflexivity.
Qed.

(** X12: in touchkey-and-display mode a touch, its end and the expiry of the
    timer make exactly these calls: on, cancel, cancel, arm with the stored
    timeout, off, cancel.  The LED is told "off" once, and nothing stays
    armed, whatever was armed before. *)
Theorem touch_cycle (s : driver) :
  btkc_mode s = MODE_TOUCHKEY_DISP ->
  run [OnTouchStart; OnTouchStop; OnLedWork] s
  = Some {| btkc_mode := btkc_mode s; btkc_timeout := btkc_timeout s;
            touched := 0; led_work := [];
            calls := calls s
                     ++ [SetButtonBacklight LED_ON; CancelDelayedWork;
                         CancelDelayedWork;
                         ScheduleDelayedWork
                           (msecs_to_jiffies (btkc_timeout s));
                         SetButtonBacklight LED_OFF; CancelDelayedWork] |}.
Proof.
  intros Hm. cbn [run step]. exec. rewrite Hm. cbn.
  rewrite <- !app_assoc. reflexivity.
Qed.

(** ** Accepted and failed writes *)

(** X3: a mode write of 0, 1 or 2 stores the value, cancels the armed timer,
    switches the LED off and returns the byte count, whatever the mode was
    before, the same mode included. *)
Theorem btkc_mode_store_accepted (v count : Z) (s : driver) :
  In v [MODE_TOUCHKEY_DISP; MODE_TOUCHKEY_ONLY; MODE_OFF] ->
  runState (btkc_mode_store (parsed v) count) s
  = (count,
     {| btkc_mode := v; btkc_timeout := btkc_timeout s; touched := touched s;
        led_work := [];
        calls := calls s ++ [CancelDelayedWork; SetButtonBacklight LED_OFF] |}).
Proof.
  intros Hv.
  assert (Hr : 0 <= v <= 2).
  { unfold MODE_TOUCHKEY_DISP, MODE_TOUCHKEY_ONLY, MODE_OFF in Hv.
    cbn in Hv. lia. }
  rewrite btkc_mode_store_accept;
    cbn [parsed kret kval]; rewrite ?to_uint_small by lia;
    [reflexivity | reflexivity | lia].
Qed.

(** X4: a timeout write of an int within 0..30000 stores it, times 1000 when
    it is at most 30, cancels the armed timer, switches the LED off and
    returns the byte count; 0 stays 0 and 31..999 are stored as they are. *)
Theorem btkc_timeout_store_accepted (v count : Z) (s : driver) :
  0 <= v <= 30000 ->
  runState (btkc_timeout_store (parsed v) count) s
  = (count,
     {| btkc_mode := btkc_mode s;
        btkc_timeout := if v <=? 30 then v * 1000 else v;
        touched := touched s; led_work := [];
        calls := calls s ++ [CancelDelayedWork; SetButtonBacklight LED_OFF] |}).
Proof.
  intros Hv.
  rewrite btkc_timeout_store_accept;
    cbn [parsed kret kval]; rewrite ?to_uint_small by lia;
    [reflexivity | reflexivity | lia].
Qed.

(** X5: when the text does not parse, both store functions change nothing,
    call nobody and return the errno read as unsigned: a positive number,
    not the negative errno, since the local that carries it is unsigned and
    the return type is wider. *)
Theorem store_parse_failure (e v count : Z) (s : driver) :
  is_int e -> e < 0 ->
  runState (btkc_mode_store {| kret := e; kval := v |} count) s
  = (2 ^ 32 + e, s)
  /\ runState (btkc_timeout_store {| kret := e; kval := v |} count) s
     = (2 ^ 32 + e, s)
  /\ 0 < 2 ^ 32 + e.
Proof.
  unfold is_int, INT_MIN, INT_MAX. intros He Hneg.
  assert (Hu : to_uint e = 2 ^ 32 + e).
  { unfold to_uint.
    replace e with (2 ^ 32 + e - 1 * 2 ^ 32) at 1 by lia.
    rewrite Zminus_mod, Z_mod_mult, Z.sub_0_r, Z.mod_mod by lia.
    apply Z.mod_small. lia. }
  split; [| split; [| lia]].
  - rewrite btkc_mode_store_error; cbn [kret]; rewrite Hu;
      [reflexivity | lia].
  - rewrite btkc_timeout_store_error; cbn [kret]; rewrite Hu;
      [reflexivity | lia].
Qed.

(** ** Who drives the LED *)

(** X9: the kernel and the ROM never both drive the LED.  In a state where a
    button press lights it, the hook vetoes every ROM request; in a state
    where the hook permits, a button press and a display touch call nobody.
    With the mode one of the three, a state where neither drives is mode
    "off". *)
Theorem kernel_or_rom (val : Z) (s : driver) :
  (button_lights s -> result (btkc_led_set val) s = - EPERM)
  /\ (rom_controls s ->
      issued btkc_touch_button s = []
      /\ issued btkc_touch_start s = []
      /\ issued btkc_touch_stop s = [])
  /\ (In (btkc_mode s) [MODE_TOUCHKEY_DISP; MODE_TOUCHKEY_ONLY; MODE_OFF] ->
      ~ button_lights s -> ~ rom_controls s -> btkc_mode s = MODE_OFF).
Proof.
  unfold button_lights, rom_controls.
  unfold MODE_TOUCHKEY_DISP, MODE_TOUCHKEY_ONLY, MODE_OFF.
  split; [| split].
  - intros H. unfold result. rewrite btkc_led_set_run. cbn [fst].
    unfold MODE_TOUCHKEY_ONLY.
    destruct (Z.eqb_spec (btkc_mode s) 1), (Z.eqb_spec (btkc_timeout s) 0);
      cbn; try reflexivity; lia.
  - intros [Hm Ht].
    repeat split; apply issued_of_calls; exec; rewrite Hm; cbn;
      rewrite ?Ht; cbn; rewrite app_nil_r; reflexivity.
  - cbn. intros Hin Hb Hr. lia.
Qed.

(** ** One trigger at a time *)

Lemma since_app s s' l : calls s' = calls s ++ l -> since s s' = l.
Proof. intros H. unfold since. rewrite H. apply skipn_length_app. Qed.

Lemma since_same s s' : calls s' = calls s -> since s s' = [].
Proof. intros H. unfold since. rewrite H. apply skipn_all. Qed.

(** Splits a step into the branches its code can take; every branch is left
    with the state it ends in written out. *)
Ltac on_step s t Hstep :=
  destruct t as [| | | val | event evdata | buf count | buf count |];
  cbn [step] in Hstep;
  [ injection Hstep as <-; exec;
    destruct (Z.eqb_spec (btkc_mode s) MODE_TOUCHKEY_DISP) as [Hmode | Hmode]
  | injection Hstep as <-; exec;
    destruct (Z.eqb_spec (btkc_mode s) MODE_TOUCHKEY_DISP) as [Hmode | Hmode]
  | injection Hstep as <-; exec;
    destruct ((btkc_mode s =? MODE_TOUCHKEY_DISP)
              || (btkc_mode s =? MODE_TOUCHKEY_ONLY)
                 && negb (btkc_timeout s =? 0)) eqn:Hlights
  | injection Hstep as <-; unfold after; rewrite btkc_led_set_run; cbn [snd]
  | injection Hstep as <-;
    destruct evdata as [[[blank |]] |];
    [ exec;
      destruct (event =? FB_EVENT_BLANK) eqn:Hevent;
      [ destruct (blank =? FB_BLANK_UNBLANK) eqn:Hblank | ]
    | exec
    | exec ]
  | injection Hstep as <-;
    destruct (btkc_mode_store_cases buf count s) as [-> | [v [Hv ->]]]
  | injection Hstep as <-;
    destruct (btkc_timeout_store_cases buf count s) as [-> | [v [Hv ->]]]
  | let d := fresh "d" in
    let rest := fresh "rest" in
    destruct (led_work s) as [| d rest] eqn:Harmed;
    [ discriminate | injection Hstep as <-; exec ] ];
  cbn.

(** Rewrites [since s s'] for a written-out [s'] to the calls added. *)
Ltac since_calls :=
  first [ rewrite since_same by reflexivity
        | erewrite since_app
            by (cbn [calls reset_led set_btkc_mode set_btkc_timeout];
                rewrite <- ?app_assoc; reflexivity) ].

Lemma button_lights_true s :
  (btkc_mode s =? MODE_TOUCHKEY_DISP)
  || (btkc_mode s =? MODE_TOUCHKEY_ONLY) && negb (btkc_timeout s =? 0) = true
  -> button_lights s.
Proof.
  unfold button_lights. intros H.
  apply orb_true_iff in H. destruct H as [H | H].
  - left. apply Z.eqb_eq, H.
  - apply andb_true_iff in H. destruct H as [Hm Ht].
    right. split; [apply Z.eqb_eq, Hm |].
    intros H0. rewrite H0 in Ht. discriminate Ht.
Qed.

(** X13: only a write to the mode attribute changes the mode, only a write
    to the timeout attribute changes the timeout, and only the start and the
    end of a display touch change touched. *)
Theorem config_frame (s : driver) (t : trigger) (s' : driver) :
  step s t = Some s' ->
  (is_mode_store t = false -> btkc_mode s' = btkc_mode s)
  /\ (is_timeout_store t = false -> btkc_timeout s' = btkc_timeout s)
  /\ (t <> OnTouchStart -> t <> OnTouchStop -> touched s' = touched s).
Proof.
  intros Hstep.
  on_step s t Hstep;
    (split; [| split]); intros; try reflexivity;
    try discriminate; congruence.
Qed.

(** X14: the only triggers that ever switch the LED on are the start of a
    display touch in touchkey-and-display mode and a button press in a state
    where the button lights. *)
Theorem led_on_sources (s : driver) (t : trigger) (s' : driver) :
  step s t = Some s' ->
  In (SetButtonBacklight LED_ON) (since s s') ->
  (t = OnTouchStart /\ btkc_mode s = MODE_TOUCHKEY_DISP)
  \/ (t = OnTouchButton /\ button_lights s).
Proof.
  intros Hstep.
  on_step s t Hstep; since_calls; cbn; intros Hin;
    try (exfalso; intuition discriminate).
  - left. split; [reflexivity | exact Hmode].
  - right. split; [reflexivity | apply button_lights_true, Hlights].
Qed.

(** ** Invariants of runs, continued *)

Lemma step_globals_ranged s t s' :
  globals_ranged s -> step s t = Some s' -> globals_ranged s'.
Proof.
  unfold globals_ranged, MODE_TOUCHKEY_DISP, MODE_TOUCHKEY_ONLY, MODE_OFF.
  intros [Hm Ht] Hstep.
  on_step s t Hstep; try (split; [exact Hm | auto]).
  split; [| exact Ht]. cbn. lia.
Qed.

(** X6: in every state a sequence of triggers leads to from the initial
    state, the mode is 0, 1 or 2 and touched is 0 or 1. *)
Theorem globals_in_range (ts : list trigger) (s : driver) :
  run ts init = Some s ->
  In (btkc_mode s) [MODE_TOUCHKEY_DISP; MODE_TOUCHKEY_ONLY; MODE_OFF]
  /\ (touched s = 0 \/ touched s = 1).
Proof.
  intros Hrun.
  apply (run_invariant globals_ranged step_globals_ranged ts init s);
    [| exact Hrun].
  split; [right; left; reflexivity | left; reflexivity].
Qed.

(** One step in mode "off" that is not a mode write. *)
Lemma step_in_off s t s' :
  btkc_mode s = MODE_OFF -> is_mode_store t = false ->
  step s t = Some s' ->
  btkc_mode s' = MODE_OFF
  /\ exists l, calls s' = calls s ++ l /\ ~ In (SetButtonBacklight LED_ON) l.
Proof.
  intros Hoff Hnot Hstep.
  assert (Hquiet : forall s0 : driver,
             calls s0 = calls s ->
             exists l, calls s0 = calls s ++ l
                       /\ ~ In (SetButtonBacklight LED_ON) l).
  { intros s0 H0. exists []. rewrite app_nil_r. split; [exact H0 | auto]. }
  on_step s t Hstep; try discriminate Hnot;
    try (rewrite Hoff in Hmode; discriminate Hmode);
    try (rewrite Hoff in Hlights; discriminate Hlights);
    try (split; [exact Hoff | apply Hquiet; reflexivity]);
    (split; [exact Hoff |]);
    eexists; (split; [rewrite <- ?app_assoc; reflexivity |]);
    cbn; intuition discriminate.
Qed.

(** X7: once the mode is "off", and until the mode is written again, no
    sequence of touches, button presses, display events, timeout writes,
    hook calls or timer expiries ever switches the LED on, and the hook
    vetoes every request. *)
Theorem mode_off_never_lights (ts : list trigger) (s s' : driver) :
  btkc_mode s = MODE_OFF ->
  forallb (fun t => negb (is_mode_store t)) ts = true ->
  run ts s = Some s' ->
  btkc_mode s' = MODE_OFF
  /\ ~ In (SetButtonBacklight LED_ON) (since s s')
  /\ forall val, result (btkc_led_set val) s' = - EPERM.
Proof.
  intros Hoff Hts Hrun.
  assert (H : btkc_mode s' = MODE_OFF
              /\ exists l, calls s' = calls s ++ l
                           /\ ~ In (SetButtonBacklight LED_ON) l).
  { revert s Hoff Hrun.
    induction ts as [| t ts IH]; intros s Hoff Hrun; cbn in Hrun.
    - injection Hrun as <-. split; [exact Hoff |].
      exists []. rewrite app_nil_r. split; [reflexivity | auto].
    - cbn in Hts. apply andb_true_iff in Hts. destruct Hts as [Ht Hts].
      apply negb_true_iff in Ht.
      destruct (step s t) as [s1 |] eqn:Hstep; [| discriminate].
      destruct (step_in_off s t s1 Hoff Ht Hstep) as [Hoff1 [l1 [Hc1 Hn1]]].
      destruct (IH Hts s1 Hoff1 Hrun) as [Hoff' [l [Hc Hn]]].
      split; [exact Hoff' |].
      exists (l1 ++ l). rewrite Hc, Hc1, app_assoc.
      split; [reflexivity |].
      intros Hin. apply in_app_or in Hin. tauto. }
  destruct H as [Hoff' [l [Hc Hn]]].
  split; [exact Hoff' |]. split.
  - rewrite (since_app s s' l Hc). exact Hn.
  - intros val. unfold result. rewrite btkc_led_set_run, Hoff'. reflexivity.
Qed.

(** Reads the last brightness off a log that ends in written-out calls. *)
Ltac last_of_added :=
  rewrite <- ?app_assoc; rewrite last_backlight_app;
  match goal with
  | |- context [match last_backlight ?l with _ => _ end] =>
      let r := eval cbv in (last_backlight l) in
      change (last_backlight l) with r
  end;
  cbv iota beta.

Lemma step_lit_is_covered s t s' :
  lit_is_covered s -> step s t = Some s' -> lit_is_covered s'.
Proof.
  intros Hs Hstep.
  on_step s t Hstep; unfold lit_is_covered in *;
    cbn [calls led_work touched btkc_mode reset_led
         set_btkc_mode set_btkc_timeout];
    try exact Hs;
    try (last_of_added; intros Hlit; first
           [ discriminate Hlit
           | left; discriminate
           | right; split; [reflexivity | assumption] ]).
  - intros Hlit. destruct (Hs Hlit) as [Hw | [_ Hm]];
      [left; exact Hw | contradiction].
  - intros Hlit. destruct (Hs Hlit) as [Hw | [_ Hm]];
      [left; exact Hw | contradiction].
Qed.

(** X8: in every state a sequence of triggers leads to from the initial
    state, an LED whose last command was "on" has a deferred off armed, or a
    display touch is going on in touchkey-and-display mode (whose end arms
    one): no trigger leaves the LED lit with nothing to switch it off. *)
Theorem lit_led_goes_off (ts : list trigger) (s : driver) :
  run ts init = Some s ->
  last_backlight (calls s) = Some LED_ON ->
  led_work s <> []
  \/ (touched s = 1 /\ btkc_mode s = MODE_TOUCHKEY_DISP).
Proof.
  intros Hrun.
  apply (run_invariant lit_is_covered step_lit_is_covered ts init s);
    [| exact Hrun].
  intros H. discriminate H.
Qed.

(** X10: writing back the value a state holds changes neither global: for
    every state reached from the initial one, a timeout write of the stored
    timeout stores the same timeout again (it is never scaled a second
    time), and a mode write of the stored mode stores the same mode. *)
Theorem write_back_is_stable (ts : list trigger) (s : driver) (count : Z) :
  run ts init = Some s ->
  let s1 := after (btkc_timeout_store (parsed (btkc_timeout s)) count) s in
  let s2 := after (btkc_mode_store (parsed (btkc_mode s)) count) s in
  btkc_timeout s1 = btkc_timeout s /\ btkc_mode s1 = btkc_mode s
  /\ btkc_mode s2 = btkc_mode s /\ btkc_timeout s2 = btkc_timeout s.
Proof.
  intros Hrun.
  assert (Ht : timeout_stored s).
  { apply (run_invariant timeout_stored step_timeout_stored ts init s);
      [left; reflexivity | exact Hrun]. }
  assert (Hg : globals_ranged s).
  { apply (run_invariant globals_ranged step_globals_ranged ts init s);
      [| exact Hrun].
    split; [right; left; reflexivity | left; reflexivity]. }
  destruct Hg as [Hm _].
  unfold MODE_TOUCHKEY_DISP, MODE_TOUCHKEY_ONLY, MODE_OFF in Hm. cbn in Hm.
  unfold timeout_stored in Ht.
  cbv zeta. unfold after.
  rewrite btkc_timeout_store_accept, btkc_mode_store_accept;
    cbn [parsed kret kval]; rewrite ?to_uint_small by lia;
    try reflexivity; try lia.
  cbn. unfold scaled.
  destruct (Z.leb_spec (btkc_timeout s) 30); repeat split; lia.
Qed.

(** ** Reading the attributes *)

Lemma string_length_append (a b : String.string) :
  String.length (String.append a b)
  = (String.length a + String.length b)%nat.
Proof. induction a as [| c a IH]; cbn; [reflexivity | rewrite IH; reflexivity]. Qed.

Lemma substring_whole (m : nat) (text : String.string) :
  (String.length text <= m)%nat -> String.substring 0 m text = text.
Proof.
  revert m. induction text as [| c text IH]; intros m Hm.
  - destruct m; reflexivity.
  - destruct m as [| m]; cbn in Hm; [lia |].
    cbn. rewrite IH by lia. reflexivity.
Qed.

Lemma snprintf_fits (size : Z) (text : String.string) :
  Z.of_nat (String.length text) < size ->
  snprintf size text = (text, Z.of_nat (String.length text)).
Proof.
  intros H. unfold snprintf. rewrite substring_whole by lia. reflexivity.
Qed.

Lemma digits_within_sound k n : forall z0 z,
  digits_within k n z0 = true ->
  z0 <= z < z0 + Z.of_nat n ->
  (String.length (fmt_d z) <= k)%nat.
Proof.
  induction n as [| n IH]; intros z0 z Hall Hz; [lia |].
  cbn [digits_within] in Hall. apply andb_true_iff in Hall.
  destruct Hall as [Hhere Hrest].
  destruct (Z.eq_dec z z0) as [-> | Hne].
  - apply Nat.leb_le, Hhere.
  - apply (IH (z0 + 1) z Hrest). lia.
Qed.

Lemma fmt_d_short (z : Z) :
  0 <= z <= 30000 -> (String.length (fmt_d z) <= 5)%nat.
Proof.
  intros Hz.
  apply (digits_within_sound 5 (Z.to_nat 30001) 0 z);
    [vm_compute; reflexivity | lia].
Qed.

(** X11: in every state a sequence of triggers leads to from the initial
    state, reading an attribute changes nothing and calls nobody; the buffer
    gets the whole line, "Mode: " or "Timeout [s]: " followed by the stored
    value in decimal and a newline, and the byte count returned is its
    length: 8 for the mode, at most 19 for the timeout, far from the page
    size that would truncate. *)
Theorem show_writes_whole_line (ts : list trigger) (s : driver) :
  run ts init = Some s ->
  let mode_line :=
    String.append "Mode: " (String.append (fmt_d (btkc_mode s)) newline) in
  let timeout_line :=
    String.append "Timeout [s]: "
                  (String.append (fmt_d (btkc_timeout s)) newline) in
  runState btkc_mode_show s = ((mode_line, 8), s)
  /\ runState btkc_timeout_show s
     = ((timeout_line, Z.of_nat (String.length timeout_line)), s)
  /\ Z.of_nat (String.length timeout_line) <= 19.
Proof.
  intros Hrun.
  assert (Ht : timeout_stored s).
  { apply (run_invariant timeout_stored step_timeout_stored ts init s);
      [left; reflexivity | exact Hrun]. }
  assert (Hg : globals_ranged s).
  { apply (run_invariant globals_ranged step_globals_ranged ts init s);
      [| exact Hrun].
    split; [right; left; reflexivity | left; reflexivity]. }
  destruct Hg as [Hm _]. unfold timeout_stored in Ht.
  cbv zeta.
  assert (Hlen : (String.length
                    (String.append "Timeout [s]: "
                       (String.append (fmt_d (btkc_timeout s)) newline))
                  <= 19)%nat).
  { rewrite !string_length_append.
    assert (Hd := fmt_d_short (btkc_timeout s)).
    change (String.length "Timeout [s]: ") with 13%nat.
    change (String.length newline) with 1%nat.
    lia. }
  split; [| split; [| lia]].
  - unfold btkc_mode_show. cbn [runState bind ret gets Monad_state
                                  MonadState_state get].
    cbn in Hm. destruct Hm as [<- | [<- | [<- | []]]]; reflexivity.
  - unfold btkc_timeout_show. cbn -[snprintf String.append fmt_d].
    rewrite snprintf_fits; [reflexivity |].
    unfold PAGE_SIZE. lia.
Qed.

(** ** Concrete instances of the further properties *)

Lemma btkc_touch_start_spec_witness :
  (btkc_mode disp = MODE_TOUCHKEY_DISP
   /\ issued btkc_touch_start disp
      = [SetButtonBacklight LED_ON; CancelDelayedWork]
   /\ led_work (after btkc_touch_start disp) = [])
  /\ (btkc_mode lit <> MODE_TOUCHKEY_DISP
      /\ issued btkc_touch_start lit = []
      /\ after btkc_touch_start lit = set_touched 1 lit).
Proof.
  assert (Hlit : btkc_mode lit <> MODE_TOUCHKEY_DISP)
    by (intros H; discriminate H).
  destruct (btkc_touch_start_spec disp) as [_ [Hd _]].
  destruct (btkc_touch_start_spec lit) as [_ [_ Ho]].
  destruct (Hd eq_refl) as [Hi Ha].
  split.
  - split; [reflexivity |]. split; [exact Hi |]. rewrite Ha. reflexivity.
  - exact (conj Hlit (Ho Hlit)).
Defined.

Lemma led_work_expiry_witness :
  led_work lit = [msecs_to_jiffies 3000]
  /\ exists s',
       step lit OnLedWork = Some s'
       /\ since lit s' = [SetButtonBacklight LED_OFF; CancelDelayedWork]
       /\ led_work s' = []
       /\ last_backlight (calls s') = Some LED_OFF
       /\ step s' OnLedWork = None
       /\ btkc_mode s' = btkc_mode lit
       /\ btkc_timeout s' = btkc_timeout lit
       /\ touched s' = touched lit.
Proof.
  split; [reflexivity |].
  exact (led_work_expiry lit (msecs_to_jiffies 3000) eq_refl).
Defined.

Lemma touch_cycle_witness :
  btkc_mode disp = MODE_TOUCHKEY_DISP
  /\ option_map (fun s => (led_work s, last_backlight (calls s)))
       (run [OnTouchStart; OnTouchStop; OnLedWork] disp)
     = Some ([], Some LED_OFF).
Proof.
  split; [reflexivity |].
  rewrite (touch_cycle disp eq_refl). reflexivity.
Defined.

Lemma btkc_mode_store_accepted_witness :
  In 2 [MODE_TOUCHKEY_DISP; MODE_TOUCHKEY_ONLY; MODE_OFF]
  /\ runState (btkc_mode_store (parsed 2) 2) lit
     = (2, {| btkc_mode := 2; btkc_timeout := 3000; touched := 0;
              led_work := [];
              calls := calls lit
                       ++ [CancelDelayedWork; SetButtonBacklight LED_OFF] |}).
Proof.
  assert (H : In 2 [MODE_TOUCHKEY_DISP; MODE_TOUCHKEY_ONLY; MODE_OFF])
    by (right; right; left; reflexivity).
  split; [exact H |].
  exact (btkc_mode_store_accepted 2 2 lit H).
Defined.

Lemma btkc_timeout_store_accepted_witness :
  0 <= 500 <= 30000
  /\ runState (btkc_timeout_store (parsed 500) 4) lit
     = (4, {| btkc_mode := 1; btkc_timeout := 500; touched := 0;
              led_work := [];
              calls := calls lit
                       ++ [CancelDelayedWork; SetButtonBacklight LED_OFF] |}).
Proof.
  assert (H : 0 <= 500 <= 30000) by lia.
  split; [exact H |].
  exact (btkc_timeout_store_accepted 500 4 lit H).
Defined.

Lemma store_parse_failure_witness :
  is_int (-22) /\ -22 < 0
  /\ runState (btkc_mode_store {| kret := -22; kval := 0 |} 4) lit
     = (4294967274, lit)
  /\ runState (btkc_timeout_store {| kret := -22; kval := 0 |} 4) lit
     = (4294967274, lit).
Proof.
  assert (Hi : is_int (-22)) by (unfold is_int, INT_MIN, INT_MAX; lia).
  assert (Hn : -22 < 0) by lia.
  destruct (store_parse_failure (-22) 0 4 lit Hi Hn) as [Hm [Ht _]].
  exact (conj Hi (conj Hn (conj Hm Ht))).
Defined.

Lemma kernel_or_rom_witness :
  (button_lights timed /\ result (btkc_led_set 255) timed = - EPERM)
  /\ (rom_controls init /\ issued btkc_touch_button init = [])
  /\ (~ button_lights off /\ ~ rom_controls off /\ btkc_mode off = MODE_OFF).
Proof.
  assert (Hb : button_lights timed).
  { right. split; [reflexivity | intros H; discriminate H]. }
  assert (Hr : rom_controls init) by (split; reflexivity).
  assert (Hnb : ~ button_lights off).
  { intros [H | [H _]]; discriminate H. }
  assert (Hnr : ~ rom_controls off) by (intros [H _]; discriminate H).
  assert (Hin : In (btkc_mode off)
                   [MODE_TOUCHKEY_DISP; MODE_TOUCHKEY_ONLY; MODE_OFF])
    by (right; right; left; reflexivity).
  destruct (kernel_or_rom 255 timed) as [Hveto _].
  destruct (kernel_or_rom 255 init) as [_ [Hquiet _]].
  destruct (kernel_or_rom 255 off) as [_ [_ Hoff]].
  exact (conj (conj Hb (Hveto Hb))
           (conj (conj Hr (proj1 (Hquiet Hr)))
                 (conj Hnb (conj Hnr (Hoff Hin Hnb Hnr))))).
Defined.

Lemma config_frame_witness :
  step timed OnTouchButton = Some lit
  /\ btkc_mode lit = btkc_mode timed
  /\ btkc_timeout lit = btkc_timeout timed
  /\ touched lit = touched timed.
Proof.
  destruct (config_frame timed OnTouchButton lit eq_refl) as [Hm [Ht Htd]].
  split; [reflexivity |].
  split; [exact (Hm eq_refl) |].
  split; [exact (Ht eq_refl) |].
  apply Htd; intros H; discriminate H.
Defined.

Lemma led_on_sources_witness :
  step timed OnTouchButton = Some lit
  /\ In (SetButtonBacklight LED_ON) (since timed lit)
  /\ ((OnTouchButton = OnTouchStart /\ btkc_mode timed = MODE_TOUCHKEY_DISP)
      \/ (OnTouchButton = OnTouchButton /\ button_lights timed)).
Proof.
  assert (Hin : In (SetButtonBacklight LED_ON) (since timed lit))
    by (left; reflexivity).
  split; [reflexivity |]. split; [exact Hin |].
  exact (led_on_sources timed OnTouchButton lit eq_refl Hin).
Defined.

Lemma globals_in_range_witness :
  run [OnModeStore (parsed 0) 2; OnTouchStart] init
  = Some (after btkc_touch_start disp)
  /\ In (btkc_mode (after btkc_touch_start disp))
        [MODE_TOUCHKEY_DISP; MODE_TOUCHKEY_ONLY; MODE_OFF]
  /\ (touched (after btkc_touch_start disp) = 0
      \/ touched (after btkc_touch_start disp) = 1).
Proof.
  split; [reflexivity |].
  exact (globals_in_range [OnModeStore (parsed 0) 2; OnTouchStart] _ eq_refl).
Defined.

Lemma mode_off_never_lights_witness :
  let ts := [OnTouchStart; OnTouchButton; OnTimeoutStore (parsed 3000) 5;
             OnTouchButton; OnTouchStop;
             OnFbNotify FB_EVENT_BLANK
                        (Some {| data := Some FB_BLANK_UNBLANK |})] in
  btkc_mode off = MODE_OFF
  /\ forallb (fun t => negb (is_mode_store t)) ts = true
  /\ exists s',
       run ts off = Some s'
       /\ btkc_timeout s' = 3000
       /\ btkc_mode s' = MODE_OFF
       /\ ~ In (SetButtonBacklight LED_ON) (since off s')
       /\ forall val, result (btkc_led_set val) s' = - EPERM.
Proof.
  intros ts. split; [reflexivity |]. split; [reflexivity |].
  eexists. split; [reflexivity |]. split; [reflexivity |].
  exact (mode_off_never_lights ts off _ eq_refl eq_refl eq_refl).
Defined.

Lemma lit_led_goes_off_witness :
  run [OnTimeoutStore (parsed 3000) 5; OnTouchButton] init = Some lit
  /\ last_backlight (calls lit) = Some LED_ON
  /\ (led_work lit <> []
      \/ (touched lit = 1 /\ btkc_mode lit = MODE_TOUCHKEY_DISP)).
Proof.
  split; [reflexivity |]. split; [reflexivity |].
  exact (lit_led_goes_off [OnTimeoutStore (parsed 3000) 5; OnTouchButton]
                          lit eq_refl eq_refl).
Defined.

Lemma write_back_is_stable_witness :
  run [OnTimeoutStore (parsed 7) 2; OnModeStore (parsed 0) 2] init
  = Some (after (btkc_mode_store (parsed 0) 2)
                (after (btkc_timeout_store (parsed 7) 2) init))
  /\ btkc_timeout
       (after (btkc_timeout_store (parsed 7000) 5)
              (after (btkc_mode_store (parsed 0) 2)
                     (after (btkc_timeout_store (parsed 7) 2) init)))
     = 7000.
Proof.
  split; [reflexivity |].
  exact (proj1 (write_back_is_stable
                  [OnTimeoutStore (parsed 7) 2; OnModeStore (parsed 0) 2]
                  _ 5 eq_refl)).
Defined.

Lemma show_writes_whole_line_witness :
  run [OnTimeoutStore (parsed 3000) 5; OnTouchButton] init = Some lit
  /\ runState btkc_mode_show lit
     = ((String.append "Mode: 1" newline, 8), lit)
  /\ runState btkc_timeout_show lit
     = ((String.append "Timeout [s]: 3000" newline, 18), lit).
Proof.
  destruct (show_writes_whole_line
              [OnTimeoutStore (parsed 3000) 5; OnTouchButton] lit eq_refl)
    as [Hm [Ht _]].
  split; [reflexivity |]. split; [exact Hm | exact Ht].
Defined.
